(** * alpaca_kernel_2: version resolution and package description

    A shallow embedding of [alpaca_kernel/_version.py] and [setup.py].

    - [Py]: the pieces of the Python runtime the two files call
      ([str.strip], [int], [str.format], truthiness).
    - [re]: a backtracking matcher for the fragment of regular expressions
      the version pattern is written in, with named groups.
    - [_version]: the module-level code of [_version.py].
    - [setuptools], [setup_py]: the keyword arguments [setup.py] passes to
      [setup] and how it computes them.

    Text is a [string] of 8-bit characters, read as the code points
    U+0000..U+00FF; the interpreter's classification of those code points
    (white space, decimal digits) is written out.  A file read is modelled by
    its result, the decoded text of the file.  Python integers are [Z]; the
    interpreter's limit on the number of digits [int] reads
    ([sys.get_int_max_str_digits()]) is the parameter [max_str_digits] of
    what calls [int]. *)

From stdpp Require Import gmap strings.
From Stdlib Require Import ZArith Ascii DecimalString.
From Stdlib Require DecimalPos DecimalN DecimalFacts.

Local Open Scope Z_scope.

(** ** The Python runtime *)

Module Py.

(** The line feed, the one character [.] does not match. *)
Definition LF : ascii := Ascii.ascii_of_N 10.

Definition ord (c : ascii) : Z := Z.of_N (Ascii.N_of_ascii c).

(** [str.isspace] on one character: TAB..CR, FS..US and SPACE, NEL, NBSP. *)
Definition isspace (c : ascii) : bool :=
  ((9 <=? ord c) && (ord c <=? 13)) || ((28 <=? ord c) && (ord c <=? 32))
  || (ord c =? 133) || (ord c =? 160).

(** The characters the class [\d] accepts and [int] reads: 0..9. *)
Definition isdecimal (c : ascii) : bool := (48 <=? ord c) && (ord c <=? 57).

Definition decimal (c : ascii) : Z := ord c - 48.

Fixpoint lstrip (s : string) : string :=
  match s with
  | String c s' => if isspace c then lstrip s' else s
  | EmptyString => EmptyString
  end.

Fixpoint rstrip (s : string) : string :=
  match s with
  | String c s' =>
      match rstrip s' with
      | EmptyString => if isspace c then EmptyString else String c EmptyString
      | r => String c r
      end
  | EmptyString => EmptyString
  end.

(** [s.strip()]: the left end is found first, then the right end. *)
Definition strip (s : string) : string := rstrip (lstrip s).

(** The value of a run of decimal digits, most significant first. *)
Fixpoint int_digits (acc : Z) (s : string) : option Z :=
  match s with
  | String c s' =>
      if isdecimal c then int_digits (10 * acc + decimal c) s' else None
  | EmptyString => Some acc
  end.

(** The interpreter's limit on the digits of an integer read from or
    written to a string: [sys.get_int_max_str_digits()], which is 4300
    unless the run sets it, and 0 for no limit (also the behaviour of
    interpreters that predate the limit).  It is consulted only beyond 640
    digits. *)
Definition default_max_str_digits : nat := 4300.

Definition max_str_digits_threshold : nat := 640.

Definition over_limit (max_str_digits digits : nat) : bool :=
  (max_str_digits_threshold <? digits)%nat
  && (0 <? max_str_digits)%nat && (max_str_digits <? digits)%nat.

(** [int(s)] on a run of decimal digits.  Signs, underscores and
    surrounding blanks are not modelled: the pattern's numeric groups
    capture digits only.  [None] is [ValueError]: an empty text, a
    character that is not a digit, or more digits (leading zeros count)
    than the limit allows. *)
Definition int_ (max_str_digits : nat) (s : string) : option Z :=
  match s with
  | EmptyString => None
  | _ =>
      if over_limit max_str_digits (String.length s) then None
      else int_digits 0 s
  end.

(** The decimal text of an integer: [str(n)], also what a [{}] field of
    [str.format] renders [n] as, for an [n] the limit lets through (any
    [n] of at most 640 digits). *)
Definition str_ (n : Z) : string := NilZero.string_of_int (Z.to_int n).

(** ["{}.{}".format(a, b)] *)
Definition format_dotted (a b : Z) : string := str_ a +:+ "." +:+ str_ b.

(** The values a version tuple holds. *)
Inductive object : Type :=
| PyInt (n : Z)
| PyStr (s : string).

(** Truth value of a string, and of the result of [dict.get] on a
    dictionary of strings ([None] when the key is absent). *)
Definition bool_str (s : string) : bool :=
  match s with EmptyString => false | _ => true end.

Definition bool_get (o : option string) : bool :=
  match o with Some s => bool_str s | None => false end.

End Py.

(** ** Regular expressions *)

Module re.

(** A character class: [\d], [.] and a literal character. *)
Inductive cclass : Type :=
| Digit
| Dot
| Lit (c : ascii).

Definition accepts (cl : cclass) (c : ascii) : bool :=
  match cl with
  | Digit => Py.isdecimal c
  | Dot => negb (Ascii.eqb c Py.LF)
  | Lit c' => Ascii.eqb c c'
  end.

(** Patterns: one character of a class, the greedy repetitions [c+] and
    [c*] of a class, a named group [(?P<name>r)] and concatenation. *)
Inductive regex : Type :=
| Chr (cl : cclass)
| Plus (cl : cclass)
| Star (cl : cclass)
| Named (name : string) (r : regex)
| Cat (r1 r2 : regex).

(** The text of each named group of a match. *)
Abbreviation groups := (gmap string string).

(** The text consumed between the input [s] and what is left of it. *)
Definition consumed (s rest : string) : string :=
  String.substring 0 (String.length s - String.length rest) s.

Section Backtracking.
Context {A : Type}.

(** Greedy [c*]: take one more character while the class accepts it,
    and give characters back one at a time while what follows fails. *)
Fixpoint star (cl : cclass) (s : string) (k : string -> option A)
  : option A :=
  match s with
  | String c s' =>
      if accepts cl c then
        match star cl s' k with
        | Some r => Some r
        | None => k s
        end
      else k s
  | EmptyString => k s
  end.

Definition plus (cl : cclass) (s : string) (k : string -> option A)
  : option A :=
  match s with
  | String c s' => if accepts cl c then star cl s' k else None
  | EmptyString => None
  end.

Definition chr (cl : cclass) (s : string) (k : string -> option A)
  : option A :=
  match s with
  | String c s' => if accepts cl c then k s' else None
  | EmptyString => None
  end.
End Backtracking.

(** [run r s g k]: match [r] at the start of [s] with the groups [g]
    closed so far, then continue with [k] on what is left; the first
    alternative on which [k] succeeds wins. *)
Fixpoint run (r : regex) (s : string) (g : groups)
    (k : string -> groups -> option groups) : option groups :=
  match r with
  | Chr cl => chr cl s (fun s' => k s' g)
  | Plus cl => plus cl s (fun s' => k s' g)
  | Star cl => star cl s (fun s' => k s' g)
  | Named name r' =>
      run r' s g (fun s' g' => k s' (<[name := consumed s s']> g'))
  | Cat r1 r2 => run r1 s g (fun s' g' => run r2 s' g' k)
  end.

(** [re.match(pattern, string)]: anchored at the start of the string, the
    end of the match is free.  [None] is no match. *)
Definition match_ (pattern : regex) (s : string) : option groups :=
  run pattern s ∅ (fun _ g => Some g).

End re.

(** ** alpaca_kernel/_version.py *)

Module _version.
Import Py re.

(** [f_read] is the text of the file [../VERSION]. *)
Definition _get_version (f_read : string) : string := strip f_read.

Definition __version__ (f_read : string) : string := _get_version f_read.

(** The pattern, piece by piece; its two separators are the unescaped
    [.] of the source, which is the class [Dot]. *)
Definition pattern : regex :=
  Cat (Named "major" (Plus Digit))        (* (?P<major>\d+) *)
 (Cat (Chr Dot)                           (* . *)
 (Cat (Named "minor" (Plus Digit))        (* (?P<minor>\d+) *)
 (Cat (Chr Dot)                           (* . *)
 (Cat (Named "patch" (Plus Digit))        (* (?P<patch>\d+) *)
      (Named "rest" (Star Dot)))))).      (* the group rest: greedy [.] run *)

Definition match_ (__version__ : string) : option groups :=
  re.match_ pattern __version__.

(** [[int(match[part]) for part in ["major", "minor", "patch"]]], then the
    conditional [append]. *)
Definition parts (max_str_digits : nat) (m : groups)
  : option (list object) :=
  ps ← mapM (fun part => g ← m !! part; PyInt <$> int_ max_str_digits g)
            ["major"; "minor"; "patch"];
  rest ← m !! "rest";
  Some (if bool_str rest then ps ++ [PyStr rest] else ps).

(** From [__version__] to [version_info]; [None] when the module raises:
    [match] is [None] at the assertion, or a later statement fails. *)
Definition version_info (max_str_digits : nat) (__version__ : string)
  : option (list object) :=
  m ← match_ __version__;
  parts max_str_digits m.

Definition kernel_protocol_version_info : Z * Z := (5, 3).

Definition kernel_protocol_version : string :=
  format_dotted (fst kernel_protocol_version_info)
                (snd kernel_protocol_version_info).

(** The names the module binds once it is loaded. *)
Module loaded.
Record t : Type := Make {
  __version__ : string;
  version_info : list object;
  kernel_protocol_version_info : Z * Z;
  kernel_protocol_version : string
}.
End loaded.

(** Loading the module with [f_read] the text of the VERSION file, in an
    interpreter whose digit limit is [max_str_digits]: [None] when a
    statement raises. *)
Definition load (max_str_digits : nat) (f_read : string)
  : option loaded.t :=
  let v := __version__ f_read in
  info ← version_info max_str_digits v;
  Some (loaded.Make v info
          kernel_protocol_version_info kernel_protocol_version).

End _version.

(** ** setup.py *)

Module setuptools.
(** The keyword arguments of the call to [setup]. *)
Record setup : Type := Setup {
  name : string;
  version : string;
  author : string;
  author_email : string;
  description : string;
  long_description : string;
  long_description_content_type : string;
  url : string;
  project_urls : list (string * string);
  license : string;
  packages : list string;
  package_data : list (string * list string);
  install_requires : list string
}.
End setuptools.

Module setup_py.
Import Py.

Definition long_description (readme : string) : string := readme.

Definition version (version_file : string) : string := strip version_file.

(** The list literal, then the branch on [os.environ.get("CONDA_BUILD")]. *)
Definition install_requires (environ : gmap string string) : list string :=
  let install_requires := ["matplotlib"; "numpy"; "pyserial"] in
  if bool_get (environ !! "CONDA_BUILD") then [] else install_requires.

(** The call at the end of the script.  [readme] and [version_file] are
    the texts of README.md and VERSION, [find_packages] the result of the
    package discovery. *)
Definition main (readme version_file : string)
    (environ : gmap string string) (find_packages : list string)
  : setuptools.setup :=
  {| setuptools.name := "alpaca_kernel_2";
     setuptools.version := version version_file;
     setuptools.author := "Thijn Hoekstra; Krzysztof Zablocki";
     setuptools.author_email := "kzablocki@tudelft.nl";
     setuptools.description :=
       "Fork of jupyter_micropython_kernel and IPythonkernel";
     setuptools.long_description := long_description readme;
     setuptools.long_description_content_type := "text/markdown";
     setuptools.url := "https://github.com/NB-TUDelft/alpaca_kernel_2";
     setuptools.project_urls :=
       [("Bug Tracker", "https://github.com/NB-TUDelft/alpaca_kernel_2")];
     setuptools.license := "MIT";
     setuptools.packages := find_packages;
     setuptools.package_data := [("", ["resources/*"; "resources/*.png"])];
     setuptools.install_requires := install_requires environ |}.

End setup_py.

(** ** Vocabulary of the statements *)

Module Text.
Import Py re.

Fixpoint all_chars (p : ascii -> bool) (s : string) : bool :=
  match s with
  | String c s' => p c && all_chars p s'
  | EmptyString => true
  end.

Definition starts_with (p : ascii -> bool) (s : string) : bool :=
  match s with
  | String c _ => p c
  | EmptyString => false
  end.

Fixpoint ends_with (p : ascii -> bool) (s : string) : bool :=
  match s with
  | String c EmptyString => p c
  | String _ s' => ends_with p s'
  | EmptyString => false
  end.

Fixpoint take_while (p : ascii -> bool) (s : string) : string :=
  match s with
  | String c s' => if p c then String c (take_while p s') else EmptyString
  | EmptyString => EmptyString
  end.

Fixpoint drop_while (p : ascii -> bool) (s : string) : string :=
  match s with
  | String c s' => if p c then drop_while p s' else s
  | EmptyString => EmptyString
  end.

(** A non-empty run of decimal digits. *)
Definition numeral (s : string) : bool :=
  bool_str s && all_chars isdecimal s.

(** ["0" * k] *)
Fixpoint zeros (k : nat) : string :=
  match k with
  | O => EmptyString
  | S k' => String "0" (zeros k')
  end.

(** A numeral [int] reads under the limit. *)
Definition within_limit (max_str_digits : nat) (s : string) : bool :=
  negb (over_limit max_str_digits (String.length s)).

(** The text up to the first line feed. *)
Definition first_line (s : string) : string := take_while (accepts Dot) s.

Definition has_LF (s : string) : bool :=
  negb (all_chars (accepts Dot) s).

(** The version tuple of three numbers and a suffix. *)
Definition tuple_of (a b c : Z) (rest : string) : list object :=
  [PyInt a; PyInt b; PyInt c] ++ (if bool_str rest then [PyStr rest] else []).

(** The groups of a match of the version pattern. *)
Definition groups_of (major minor patch rest : string) : groups :=
  <["rest" := rest]> (<["patch" := patch]> (<["minor" := minor]>
    (<["major" := major]> ∅))).

(** The pattern the specification gives, [^\d+\.\d+\.\d+], whose separators
    are literal dots. *)
Definition dotted_prefix : regex :=
  Cat (Plus Digit)
 (Cat (Chr (Lit "."))
 (Cat (Plus Digit)
 (Cat (Chr (Lit "."))
      (Plus Digit)))).

End Text.

Import Py re Text.

(** ** Strings *)

Section Strings.
Implicit Types (s t u : string) (c : ascii) (p : ascii -> bool).

Lemma append_nil_l s : "" +:+ s = s.
Proof. reflexivity. Qed.

Lemma append_cons c s t : String c s +:+ t = String c (s +:+ t).
Proof. reflexivity. Qed.

Lemma append_nil_r s : s +:+ "" = s.
Proof.
  induction s as [|c s IH]; [done|]. now rewrite append_cons, IH.
Qed.

Lemma length_append s t :
  String.length (s +:+ t) = (String.length s + String.length t)%nat.
Proof.
  induction s as [|c s IH]; [done|]. rewrite append_cons. simpl. now rewrite IH.
Qed.

Lemma substring_prefix s t :
  String.substring 0 (String.length s) (s +:+ t) = s.
Proof.
  induction s as [|c s IH].
  - now destruct t.
  - rewrite append_cons. simpl. now rewrite IH.
Qed.

Lemma consumed_app s t : consumed (s +:+ t) t = s.
Proof.
  unfold consumed. rewrite length_append.
  replace (_ + _ - _)%nat with (String.length s) by lia.
  apply substring_prefix.
Qed.

Lemma take_drop_while p s : take_while p s +:+ drop_while p s = s.
Proof.
  induction s as [|c s IH]; simpl; [done|].
  destruct (p c); [|done]. now rewrite append_cons, IH.
Qed.

Lemma all_take_while p s : all_chars p (take_while p s) = true.
Proof.
  induction s as [|c s IH]; simpl; [done|].
  destruct (p c) eqn:E; simpl; [|done]. now rewrite E.
Qed.

Lemma starts_drop_while p s : starts_with p (drop_while p s) = false.
Proof.
  induction s as [|c s IH]; simpl; [done|].
  destruct (p c) eqn:E; simpl; done.
Qed.

Lemma take_while_all p s : all_chars p s = true -> take_while p s = s.
Proof.
  induction s as [|c s IH]; simpl; [done|].
  intros [-> Hs]%andb_prop. now rewrite IH.
Qed.

Lemma consumed_drop_while p s : consumed s (drop_while p s) = take_while p s.
Proof.
  rewrite <- (take_drop_while p s) at 1. apply consumed_app.
Qed.

Lemma drop_while_stop p t : starts_with p t = false -> drop_while p t = t.
Proof. destruct t as [|c t]; simpl; [done|]. now intros ->. Qed.

Lemma take_while_stop p t : starts_with p t = false -> take_while p t = "".
Proof. destruct t as [|c t]; simpl; [done|]. now intros ->. Qed.

Lemma drop_while_app p s t :
  all_chars p s = true -> starts_with p t = false ->
  drop_while p (s +:+ t) = t.
Proof.
  intros Hs Ht. induction s as [|c s IH]; [now apply drop_while_stop|].
  rewrite append_cons. simpl in *. apply andb_prop in Hs as [-> Hs]. auto.
Qed.

Lemma take_while_app p s t :
  all_chars p s = true -> starts_with p t = false ->
  take_while p (s +:+ t) = s.
Proof.
  intros Hs Ht. induction s as [|c s IH]; [now apply take_while_stop|].
  rewrite append_cons. simpl in *. apply andb_prop in Hs as [-> Hs].
  now rewrite IH.
Qed.
End Strings.

(** ** [str.strip] *)

Section Strip.
Implicit Types (s t l r : string) (c : ascii).

Lemma lstrip_drop_while s : lstrip s = drop_while isspace s.
Proof.
  induction s as [|c s IH]; simpl; [done|]. now rewrite IH.
Qed.

Lemma lstrip_starts s : starts_with isspace (lstrip s) = false.
Proof. rewrite lstrip_drop_while. apply starts_drop_while. Qed.

Lemma lstrip_split s :
  s = take_while isspace s +:+ lstrip s.
Proof. rewrite lstrip_drop_while. symmetry. apply take_drop_while. Qed.

Lemma rstrip_split s :
  exists r, s = rstrip s +:+ r /\ all_chars isspace r = true.
Proof.
  induction s as [|c s (r & Hs & Hr)]; simpl.
  - now exists "".
  - destruct (rstrip s) as [|c' r0] eqn:E.
    + rewrite append_nil_l in Hs. subst r.
      destruct (isspace c) eqn:Hc.
      * exists (String c s). simpl. now rewrite Hc, Hr.
      * now exists s.
    + exists r. split; [|done]. rewrite append_cons. now f_equal.
Qed.

Lemma rstrip_ends s : ends_with isspace (rstrip s) = false.
Proof.
  induction s as [|c s IH]; simpl; [done|].
  destruct (rstrip s) as [|c' r0] eqn:E.
  - destruct (isspace c) eqn:Hc; simpl; done.
  - exact IH.
Qed.

Lemma rstrip_starts s :
  starts_with isspace s = false -> starts_with isspace (rstrip s) = false.
Proof.
  destruct s as [|c s]; simpl; [done|]. intros Hc.
  destruct (rstrip s); [now rewrite Hc|done].
Qed.

Lemma lstrip_spaces l s :
  all_chars isspace l = true -> lstrip (l +:+ s) = lstrip s.
Proof.
  induction l as [|c l IH]; [done|].
  rewrite append_cons. simpl. intros [-> Hl]%andb_prop. auto.
Qed.

Lemma lstrip_id s : starts_with isspace s = false -> lstrip s = s.
Proof. destruct s as [|c s]; simpl; [done|]. now intros ->. Qed.

Lemma rstrip_spaces r : all_chars isspace r = true -> rstrip r = "".
Proof.
  induction r as [|c r IH]; simpl; [done|].
  intros [-> Hr]%andb_prop. now rewrite IH.
Qed.

Lemma rstrip_app_spaces s r :
  all_chars isspace r = true -> ends_with isspace s = false ->
  rstrip (s +:+ r) = s.
Proof.
  intros Hr. induction s as [|c s IH]; intros He.
  - now apply rstrip_spaces.
  - rewrite append_cons. simpl. destruct s as [|c' s].
    + rewrite append_nil_l, rstrip_spaces by done. simpl in He. now rewrite He.
    + rewrite IH by exact He. done.
Qed.

(** [strip] splits a text into leading white space, the result, trailing
    white space, and the result has white space at neither end. *)
Lemma strip_split s :
  exists l r,
    s = l +:+ strip s +:+ r /\
    all_chars isspace l = true /\ all_chars isspace r = true /\
    starts_with isspace (strip s) = false /\
    ends_with isspace (strip s) = false.
Proof.
  unfold strip. destruct (rstrip_split (lstrip s)) as (r & Hs & Hr).
  exists (take_while isspace s), r. repeat split.
  - rewrite <- Hs. apply lstrip_split.
  - apply all_take_while.
  - exact Hr.
  - apply rstrip_starts, lstrip_starts.
  - apply rstrip_ends.
Qed.

(** and it is the only such middle part. *)
Lemma strip_unique l s r :
  all_chars isspace l = true -> all_chars isspace r = true ->
  starts_with isspace s = false -> ends_with isspace s = false ->
  strip (l +:+ s +:+ r) = s.
Proof.
  intros Hl Hr Hs He. unfold strip. rewrite lstrip_spaces by done.
  destruct s as [|c s].
  - rewrite append_nil_l. rewrite <- (append_nil_r r), lstrip_spaces by done. done.
  - rewrite lstrip_id by (rewrite append_cons; exact Hs).
    now apply rstrip_app_spaces.
Qed.
End Strip.

(** ** [int] and [str] *)

Section Numerals.
Implicit Types (s t : string) (c : ascii) (n acc : Z) (d : Decimal.uint)
               (L : nat).

Lemma int_digits_all acc s n :
  int_digits acc s = Some n -> all_chars isdecimal s = true.
Proof.
  revert acc. induction s as [|c s IH]; simpl; [done|]. intros acc.
  destruct (isdecimal c); [|done]. apply IH.
Qed.

Lemma int_digits_total acc s :
  all_chars isdecimal s = true -> is_Some (int_digits acc s).
Proof.
  revert acc. induction s as [|c s IH]; simpl; intros acc; [by eexists|].
  intros [-> Hs]%andb_prop. now apply IH.
Qed.

(** The limit lets a shorter numeral through when it lets a longer one,
    and it lets through whatever has at most 640 digits. *)
Lemma over_limit_mono L (k k' : nat) :
  (k <= k')%nat -> over_limit L k' = false -> over_limit L k = false.
Proof.
  unfold over_limit. intros Hk H.
  apply not_true_is_false. intros H'. apply not_true_iff_false in H.
  apply H. apply andb_prop in H' as [[H1 H2]%andb_prop H3].
  apply Nat.ltb_lt in H1, H3. rewrite H2.
  rewrite !andb_true_iff, !Nat.ltb_lt. lia.
Qed.

Lemma within_limit_shorter L s t :
  (String.length s <= String.length t)%nat ->
  within_limit L t = true -> within_limit L s = true.
Proof.
  unfold within_limit. rewrite !negb_true_iff. apply over_limit_mono.
Qed.

Lemma within_limit_threshold L s :
  (String.length s <= max_str_digits_threshold)%nat ->
  within_limit L s = true.
Proof.
  unfold within_limit, over_limit. intros H%Nat.ltb_ge. now rewrite H.
Qed.

Lemma within_no_limit s : within_limit 0 s = true.
Proof.
  unfold within_limit, over_limit. simpl. now rewrite andb_false_r.
Qed.

(** [int] succeeds exactly on the numerals the limit lets through. *)
Lemma int_Some L s n :
  int_ L s = Some n <->
  numeral s = true /\ within_limit L s = true /\ int_digits 0 s = Some n.
Proof.
  unfold numeral, within_limit, int_. destruct s as [|c s].
  - split; [done|]. now intros (H & _).
  - cbn [bool_str andb]. destruct (over_limit L _); cbn [negb].
    + split; [done|]. now intros (_ & H & _).
    + split; [|now intros (_ & _ & H)].
      intros H. repeat split; [|exact H]. exact (int_digits_all _ _ _ H).
Qed.

Lemma int_numeral L s n : int_ L s = Some n -> numeral s = true.
Proof. now intros (? & _)%int_Some. Qed.

Lemma numeral_int L s :
  numeral s = true -> within_limit L s = true -> is_Some (int_ L s).
Proof.
  intros Hs HL. pose proof Hs as [_ Hd]%andb_prop.
  destruct (int_digits_total 0 s Hd) as [n Hn].
  exists n. now apply int_Some.
Qed.

Lemma int_over_limit L s : within_limit L s = false -> int_ L s = None.
Proof.
  unfold within_limit, int_. intros H%negb_false_iff.
  destruct s; [done|]. now rewrite H.
Qed.

(** Leading zeros do not change the value. *)
Lemma int_digits_zeros k s : int_digits 0 (zeros k +:+ s) = int_digits 0 s.
Proof.
  induction k as [|k IH]; [done|]. cbn [zeros]. now rewrite append_cons.
Qed.

(** Reading the digits of a decimal numeral, most significant first. *)
Lemma int_digits_uint d d' :
  int_digits (Z.of_N (DecimalPos.Unsigned.of_lu d'))
             (NilEmpty.string_of_uint d)
  = Some (Z.of_N (DecimalPos.Unsigned.of_lu (Decimal.revapp d d'))).
Proof.
  revert d'. induction d as [|d IH|d IH|d IH|d IH|d IH|d IH|d IH|d IH|d IH|d IH];
    intros d'; [done|..];
    cbn [NilEmpty.string_of_uint int_digits Decimal.revapp];
    rewrite <- IH; cbn [DecimalPos.Unsigned.of_lu];
    match goal with
    | |- (if ?b then _ else _) = _ => change b with true; cbv iota
    end;
    f_equal; unfold decimal, ord; simpl Ascii.N_of_ascii; lia.
Qed.

Lemma int_digits_of_uint d :
  int_digits 0 (NilEmpty.string_of_uint d) = Some (Z.of_N (N.of_uint d)).
Proof.
  pose proof (int_digits_uint d Decimal.Nil) as H.
  unfold N.of_uint. now rewrite DecimalPos.Unsigned.of_uint_alt.
Qed.

Lemma str_of_N (x : N) :
  str_ (Z.of_N x) = NilEmpty.string_of_uint (N.to_uint x).
Proof.
  destruct x as [|p]; [done|]. unfold str_. simpl.
  pose proof (DecimalPos.Unsigned.to_uint_nonnil p).
  unfold NilZero.string_of_uint. now destruct (Pos.to_uint p).
Qed.

(** [int(str(n)) == n] for a non-negative [n], before the limit. *)
Lemma int_digits_str n : 0 <= n -> int_digits 0 (str_ n) = Some n.
Proof.
  intros Hn. rewrite <- (Z2N.id n Hn), str_of_N, int_digits_of_uint.
  now rewrite DecimalN.Unsigned.of_to.
Qed.

Lemma numeral_str n : 0 <= n -> numeral (str_ n) = true.
Proof.
  intros Hn. unfold numeral.
  rewrite (int_digits_all _ _ _ (int_digits_str n Hn)), andb_true_r.
  rewrite <- (Z2N.id n Hn), str_of_N.
  destruct (Z.to_N n) as [|p]; [done|]. simpl.
  pose proof (DecimalPos.Unsigned.to_uint_nonnil p).
  now destruct (Pos.to_uint p).
Qed.

Lemma int_str L n :
  0 <= n -> within_limit L (str_ n) = true -> int_ L (str_ n) = Some n.
Proof.
  intros Hn HL. apply int_Some.
  repeat split; [now apply numeral_str|done|now apply int_digits_str].
Qed.

Lemma numeral_zeros k s : numeral s = true -> numeral (zeros k +:+ s) = true.
Proof.
  intros Hs. induction k as [|k IH]; [done|].
  cbn [zeros]. rewrite append_cons. unfold numeral in *. simpl.
  now apply andb_prop in IH as [_ ->].
Qed.

Lemma int_str_zeros L k n :
  0 <= n -> within_limit L (zeros k +:+ str_ n) = true ->
  int_ L (zeros k +:+ str_ n) = Some n.
Proof.
  intros Hn HL. apply int_Some. rewrite int_digits_zeros.
  repeat split; [|done|now apply int_digits_str].
  now apply numeral_zeros, numeral_str.
Qed.

(** A run of [k] digits has a value under [10 ^ k], so the text of a number
    from [10 ^ k] on has more than [k] digits. *)
Lemma int_digits_bound acc s n :
  0 <= acc -> int_digits acc s = Some n ->
  n < (acc + 1) * 10 ^ Z.of_nat (String.length s).
Proof.
  revert acc. induction s as [|c s IH]; intros acc Hacc; cbn [int_digits].
  - intros [= <-]. simpl. lia.
  - destruct (isdecimal c) eqn:Hc; [|done]. intros H.
    assert (48 <= ord c <= 57) as Hord.
    { unfold isdecimal in Hc. apply andb_prop in Hc as [H1 H2].
      apply Z.leb_le in H1, H2. lia. }
    apply IH in H; [|unfold decimal; lia].
    cbn [String.length]. rewrite Nat2Z.inj_succ, Z.pow_succ_r by lia.
    pose proof (Z.pow_pos_nonneg 10 (Z.of_nat (String.length s))).
    unfold decimal in H. nia.
Qed.

Lemma str_length_lower n (k : nat) :
  10 ^ Z.of_nat k <= n -> (k < String.length (str_ n))%nat.
Proof.
  intros Hn.
  assert (0 <= n) as H0 by (pose proof (Z.pow_pos_nonneg 10 (Z.of_nat k)); lia).
  pose proof (int_digits_bound 0 _ n (Z.le_refl 0) (int_digits_str n H0)) as H.
  destruct (Nat.lt_ge_cases k (String.length (str_ n))) as [|Hle]; [done|].
  assert (10 ^ Z.of_nat (String.length (str_ n)) <= 10 ^ Z.of_nat k)
    by (apply Z.pow_le_mono_r; lia).
  lia.
Qed.

Lemma length_zeros k : String.length (zeros k) = k.
Proof. induction k; simpl; congruence. Qed.

Lemma over_default_limit s :
  (default_max_str_digits < String.length s)%nat ->
  within_limit default_max_str_digits s = false.
Proof.
  intros H. unfold within_limit, over_limit. apply negb_false_iff.
  rewrite !andb_true_iff, !Nat.ltb_lt.
  unfold default_max_str_digits, max_str_digits_threshold in *. lia.
Qed.

Lemma length_str_big : (4300 < String.length (str_ (10 ^ 4300)))%nat.
Proof.
  apply str_length_lower. change (Z.of_nat 4300) with 4300. apply Z.le_refl.
Qed.
End Numerals.

(** ** The matcher *)

Section Matcher.
Context {A : Type}.
Implicit Types (s t p : string) (c : ascii) (cl : cclass)
               (k : string -> option A) (r : A).

(** What [c*] hands to its continuation is the input less a run of the
    class. *)
Lemma star_sound cl s k r :
  star cl s k = Some r ->
  exists p t, s = p +:+ t /\ all_chars (accepts cl) p = true /\
              k t = Some r.
Proof.
  induction s as [|c s IH]; simpl.
  - intros H. by exists "", "".
  - destruct (accepts cl c) eqn:Hc.
    + destruct (star cl s k) as [r'|] eqn:E.
      * intros [= ->]. destruct (IH eq_refl) as (p & t & -> & Hp & Hk).
        exists (String c p), t. simpl. now rewrite Hc, Hp.
      * intros H. by exists "", (String c s).
    + intros H. by exists "", (String c s).
Qed.

Lemma plus_sound cl s k r :
  plus cl s k = Some r ->
  exists p t, s = p +:+ t /\ bool_str p = true /\
              all_chars (accepts cl) p = true /\ k t = Some r.
Proof.
  destruct s as [|c s]; simpl; [done|].
  destruct (accepts cl c) eqn:Hc; [|done].
  intros (p & t & -> & Hp & Hk)%star_sound.
  exists (String c p), t. simpl. now rewrite Hc, Hp.
Qed.

Lemma chr_sound cl s k r :
  chr cl s k = Some r ->
  exists c t, s = String c t /\ accepts cl c = true /\ k t = Some r.
Proof.
  destruct s as [|c s]; simpl; [done|].
  destruct (accepts cl c) eqn:Hc; [|done]. intros H. by exists c, s.
Qed.

(** Greedy: a longer run is tried before a shorter one. *)
Lemma star_app cl p t k r :
  all_chars (accepts cl) p = true ->
  star cl t k = Some r -> star cl (p +:+ t) k = Some r.
Proof.
  intros Hp Ht. induction p as [|c p IH]; [done|].
  rewrite append_cons. simpl in *. apply andb_prop in Hp as [-> Hp].
  now rewrite IH.
Qed.

Lemma star_stop cl t k :
  starts_with (accepts cl) t = false -> star cl t k = k t.
Proof. destruct t as [|c t]; simpl; [done|]. now intros ->. Qed.

Lemma plus_app cl p t k r :
  bool_str p = true -> all_chars (accepts cl) p = true ->
  starts_with (accepts cl) t = false ->
  k t = Some r -> plus cl (p +:+ t) k = Some r.
Proof.
  destruct p as [|c p]; [done|]. intros _ Hp Ht Hk.
  rewrite append_cons. simpl in *. apply andb_prop in Hp as [-> Hp].
  apply star_app; [done|]. now rewrite star_stop.
Qed.

(** When what follows cannot fail, nothing is given back. *)
Lemma star_total cl s k :
  (forall t, is_Some (k t)) ->
  star cl s k = k (drop_while (accepts cl) s).
Proof.
  intros Hk. induction s as [|c s IH]; simpl; [done|].
  destruct (accepts cl c); [|done]. rewrite IH.
  now destruct (Hk (drop_while (accepts cl) s)) as [r ->].
Qed.

Lemma plus_total cl s k :
  (forall t, is_Some (k t)) ->
  plus cl s k =
    if starts_with (accepts cl) s then k (drop_while (accepts cl) s)
    else None.
Proof.
  intros Hk. destruct s as [|c s]; simpl; [done|].
  destruct (accepts cl c); [|done]. now apply star_total.
Qed.
End Matcher.

(** ** The version pattern *)

Section Pattern.
Implicit Types (v s t a b c r : string) (x y : ascii) (m : groups).

Lemma match_unfold v :
  match_ _version.pattern v =
  plus Digit v (fun s1 =>
  chr Dot s1 (fun s2 =>
  plus Digit s2 (fun s3 =>
  chr Dot s3 (fun s4 =>
  plus Digit s4 (fun s5 =>
  star Dot s5 (fun s6 =>
    Some (<["rest" := consumed s5 s6]> (<["patch" := consumed s4 s5]>
         (<["minor" := consumed s2 s3]> (<["major" := consumed v s1]>
          ∅)))))))))).
Proof. reflexivity. Qed.

(** From the patch group on nothing is given back: the group takes the
    whole run of digits and the rest the line that follows. *)
Lemma patch_rest s m :
  plus Digit s (fun s5 =>
  star Dot s5 (fun s6 =>
    Some (<["rest" := consumed s5 s6]> (<["patch" := consumed s s5]> m)))) =
  if starts_with isdecimal s
  then Some (<["rest" := first_line (drop_while isdecimal s)]>
            (<["patch" := take_while isdecimal s]> m))
  else None.
Proof.
  rewrite plus_total.
  - change (accepts Digit) with isdecimal.
    destruct (starts_with isdecimal s); [|done].
    rewrite star_total by (intros; by eexists).
    now rewrite !consumed_drop_while.
  - intros t. rewrite star_total by (intros; by eexists). by eexists.
Qed.

Lemma numeral_take_while s :
  starts_with isdecimal s = true -> numeral (take_while isdecimal s) = true.
Proof.
  unfold numeral. rewrite all_take_while.
  destruct s as [|c s]; simpl; [done|]. now intros ->.
Qed.

(** Every match splits the text into three numerals, two separators that
    are any character but the line feed, and the rest of the line. *)
Lemma match_sound v m :
  match_ _version.pattern v = Some m ->
  exists a x b y c t,
    v = a +:+ String x (b +:+ String y (c +:+ t)) /\
    numeral a = true /\ accepts Dot x = true /\
    numeral b = true /\ accepts Dot y = true /\
    numeral c = true /\ starts_with isdecimal t = false /\
    m = groups_of a b c (first_line t).
Proof.
  rewrite match_unfold.
  intros (a & s1 & -> & Ha & Hda & H)%plus_sound.
  apply chr_sound in H as (x & s2 & -> & Hx & H).
  apply plus_sound in H as (b & s3 & -> & Hb & Hdb & H).
  apply chr_sound in H as (y & s4 & -> & Hy & H).
  rewrite patch_rest, !consumed_app in H.
  destruct (starts_with isdecimal s4) eqn:Hs4; [|done].
  injection H as <-.
  exists a, x, b, y, (take_while isdecimal s4), (drop_while isdecimal s4).
  rewrite take_drop_while. unfold numeral.
  change (accepts Digit) with isdecimal in *. rewrite Ha, Hb, Hda, Hdb.
  repeat split; try done.
  - now apply numeral_take_while.
  - apply starts_drop_while.
Qed.

(** Conversely, with separators that are not digits the first attempt of
    the matcher succeeds. *)
Lemma match_dotted a x b y c t :
  numeral a = true -> isdecimal x = false -> accepts Dot x = true ->
  numeral b = true -> isdecimal y = false -> accepts Dot y = true ->
  numeral c = true -> starts_with isdecimal t = false ->
  match_ _version.pattern (a +:+ String x (b +:+ String y (c +:+ t)))
  = Some (groups_of a b c (first_line t)).
Proof.
  unfold numeral.
  intros [Ha Hda]%andb_prop Hx Hx' [Hb Hdb]%andb_prop Hy Hy'
         [Hc Hdc]%andb_prop Ht.
  rewrite match_unfold.
  apply plus_app; [done..|]. cbn [chr]. rewrite Hx'.
  apply plus_app; [done..|]. cbn [chr]. rewrite Hy'.
  rewrite patch_rest, !consumed_app.
  rewrite drop_while_app, take_while_app by done.
  destruct c as [|d c]; [done|]. rewrite append_cons. simpl in *.
  now apply andb_prop in Hdc as [-> _].
Qed.
End Pattern.

(** ** From the groups to the version tuple *)

Section VersionInfo.
Implicit Types (v s t a b c r : string) (x y : ascii) (m : groups)
               (na nb nc : Z) (L : nat) (info : list object).

Lemma groups_of_lookup a b c r :
  groups_of a b c r !! "major" = Some a /\
  groups_of a b c r !! "minor" = Some b /\
  groups_of a b c r !! "patch" = Some c /\
  groups_of a b c r !! "rest" = Some r.
Proof. unfold groups_of. repeat split; by simplify_map_eq. Qed.

Lemma parts_groups_of L a b c r :
  _version.parts L (groups_of a b c r) =
  na ← int_ L a; nb ← int_ L b; nc ← int_ L c; Some (tuple_of na nb nc r).
Proof.
  destruct (groups_of_lookup a b c r) as (Ha & Hb & Hc & Hr).
  unfold _version.parts. cbn [mapM]. rewrite Ha, Hb, Hc, Hr. simpl.
  destruct (int_ L a), (int_ L b), (int_ L c); simpl; [|done..].
  unfold tuple_of. now destruct (bool_str r).
Qed.

Lemma first_line_starts t :
  starts_with isdecimal t = false ->
  starts_with isdecimal (first_line t) = false.
Proof.
  unfold first_line. destruct t as [|d t]; simpl; [done|].
  now destruct (negb _).
Qed.

Lemma first_line_id s : has_LF s = false -> first_line s = s.
Proof.
  unfold has_LF, first_line. intros H%negb_false_iff.
  now apply take_while_all.
Qed.

Lemma first_line_has_LF t : has_LF (first_line t) = false.
Proof. unfold has_LF, first_line. now rewrite all_take_while. Qed.

(** Past the assertion the tuple is made of the three numerals read by
    [int] and of the rest of the line. *)
Lemma version_info_of_match L v m :
  match_ _version.pattern v = Some m ->
  exists a b c r,
    m = groups_of a b c r /\
    numeral a = true /\ numeral b = true /\ numeral c = true /\
    starts_with isdecimal r = false /\ has_LF r = false /\
    _version.version_info L v =
      na ← int_ L a; nb ← int_ L b; nc ← int_ L c;
      Some (tuple_of na nb nc r).
Proof.
  intros Hm. unfold _version.version_info, _version.match_. rewrite Hm. simpl.
  apply match_sound in Hm
    as (a & x & b & y & c & t & _ & Ha & _ & Hb & _ & Hc & Ht & ->).
  exists a, b, c, (first_line t). rewrite parts_groups_of.
  repeat split; try done; [now apply first_line_starts|].
  apply first_line_has_LF.
Qed.

(** What a resolved tuple comes from. *)
Lemma version_info_resolved L v info :
  _version.version_info L v = Some info ->
  exists a b c r na nb nc,
    match_ _version.pattern v = Some (groups_of a b c r) /\
    int_ L a = Some na /\ int_ L b = Some nb /\ int_ L c = Some nc /\
    starts_with isdecimal r = false /\ has_LF r = false /\
    info = tuple_of na nb nc r.
Proof.
  intros Hinfo.
  destruct (match_ _version.pattern v) as [m|] eqn:Hm;
    [|unfold _version.version_info, _version.match_ in Hinfo;
      now rewrite Hm in Hinfo].
  destruct (version_info_of_match L v m Hm)
    as (a & b & c & r & -> & _ & _ & _ & Hd & Hl & Hv).
  rewrite Hv in Hinfo.
  destruct (int_ L a) as [na|] eqn:Ha; [|done].
  destruct (int_ L b) as [nb|] eqn:Hb; [|done].
  destruct (int_ L c) as [nc|] eqn:Hc; [|done].
  injection Hinfo as <-. by exists a, b, c, r, na, nb, nc.
Qed.

(** Three numerals with separators that are neither digits nor the line
    feed resolve to their values and the rest of the line. *)
Lemma version_info_dotted L a x b y c t na nb nc :
  int_ L a = Some na -> int_ L b = Some nb -> int_ L c = Some nc ->
  isdecimal x = false -> accepts Dot x = true ->
  isdecimal y = false -> accepts Dot y = true ->
  starts_with isdecimal t = false ->
  _version.version_info L (a +:+ String x (b +:+ String y (c +:+ t)))
  = Some (tuple_of na nb nc (first_line t)).
Proof.
  intros Ha Hb Hc Hx Hx' Hy Hy' Ht.
  unfold _version.version_info, _version.match_.
  rewrite match_dotted by eauto using int_numeral. simpl.
  now rewrite parts_groups_of, Ha, Hb, Hc.
Qed.

(** A numeral over the limit makes [int] raise past the assertion. *)
Lemma version_info_over_limit L a x b y c t :
  numeral a = true -> isdecimal x = false -> accepts Dot x = true ->
  numeral b = true -> isdecimal y = false -> accepts Dot y = true ->
  numeral c = true -> starts_with isdecimal t = false ->
  within_limit L a = false \/ within_limit L b = false \/
  within_limit L c = false ->
  _version.version_info L (a +:+ String x (b +:+ String y (c +:+ t))) = None.
Proof.
  intros Ha Hx Hx' Hb Hy Hy' Hc Ht HL.
  unfold _version.version_info, _version.match_.
  rewrite match_dotted by done. simpl. rewrite parts_groups_of.
  destruct HL as [HL|[HL|HL]]; apply int_over_limit in HL; rewrite HL.
  - done.
  - now destruct (int_ L a).
  - now destruct (int_ L a), (int_ L b).
Qed.

Lemma tuple_of_length na nb nc r :
  length (tuple_of na nb nc r) = if bool_str r then 4%nat else 3%nat.
Proof. unfold tuple_of. now destruct (bool_str r). Qed.
End VersionInfo.

(** ** The version tuple *)

Section Resolution.
Implicit Types (v s : string) (a b c : Z) (info : list object) (L : nat).

Lemma dot_separator :
  isdecimal "." = false /\ accepts Dot "." = true.
Proof. split; reflexivity. Qed.

(** Three rendered numbers, leading zeros or not, then a suffix. *)
Lemma version_info_numbers L i j k a b c s :
  0 <= a -> 0 <= b -> 0 <= c ->
  within_limit L (zeros i +:+ str_ a) = true ->
  within_limit L (zeros j +:+ str_ b) = true ->
  within_limit L (zeros k +:+ str_ c) = true ->
  starts_with isdecimal s = false ->
  _version.version_info L
    ((zeros i +:+ str_ a) +:+ "." +:+ (zeros j +:+ str_ b) +:+ "." +:+
     (zeros k +:+ str_ c) +:+ s)
  = Some (tuple_of a b c (first_line s)).
Proof.
  intros Ha Hb Hc La Lb Lc Hs. destruct dot_separator as [Hd Hd'].
  exact (version_info_dotted L _ "." _ "." _ s a b c
           (int_str_zeros L i a Ha La) (int_str_zeros L j b Hb Lb)
           (int_str_zeros L k c Hc Lc) Hd Hd' Hd Hd' Hs).
Qed.

(** C2, as the code has it: the text [a.b.c] of three non-negative integers
    that [int] reads under the interpreter's digit limit, with nothing
    after it, resolves to the tuple [(a, b, c)] of length 3. *)
Theorem C2_three_numbers L a b c :
  0 <= a -> 0 <= b -> 0 <= c ->
  within_limit L (str_ a) = true -> within_limit L (str_ b) = true ->
  within_limit L (str_ c) = true ->
  _version.version_info L (str_ a +:+ "." +:+ str_ b +:+ "." +:+ str_ c)
  = Some [PyInt a; PyInt b; PyInt c].
Proof.
  intros Ha Hb Hc La Lb Lc.
  pose proof (version_info_numbers L 0 0 0 a b c "" Ha Hb Hc La Lb Lc eq_refl)
    as H.
  cbn [zeros first_line take_while] in H.
  now rewrite !append_nil_l, append_nil_r in H.
Qed.

Lemma C2_three_numbers_witness :
  (0 <= 2 /\ 0 <= 0) /\
  within_limit default_max_str_digits "2" = true /\
  _version.version_info default_max_str_digits "2.0.0"
    = Some [PyInt 2; PyInt 0; PyInt 0].
Proof.
  split; [lia|]. split; [reflexivity|].
  apply (C2_three_numbers default_max_str_digits 2 0 0);
    (lia || reflexivity).
Defined.

(** C2, as the specification has it, fails on a number of 4301 digits in
    an interpreter with the default limit: the pattern matches and [int]
    raises. *)
Lemma C2_number_over_digit_limit :
  0 <= 10 ^ 4300 /\
  (4300 < String.length (str_ (10 ^ 4300)))%nat /\
  _version.version_info default_max_str_digits
    (str_ (10 ^ 4300) +:+ "." +:+ str_ 0 +:+ "." +:+ str_ 0) = None.
Proof.
  split; [apply Z.pow_nonneg; lia|]. split; [exact length_str_big|].
  destruct dot_separator as [Hd Hd'].
  refine (eq_trans _ (version_info_over_limit default_max_str_digits
           (str_ (10 ^ 4300)) "." (str_ 0) "." (str_ 0) ""
           _ Hd Hd' _ Hd Hd' _ eq_refl _)).
  - rewrite (append_nil_r (str_ 0)). reflexivity.
  - apply numeral_str, Z.pow_nonneg. lia.
  - reflexivity.
  - reflexivity.
  - left. apply over_default_limit. exact length_str_big.
Qed.

(** C3, as the code has it: the text [a.b.c] of three non-negative integers
    that [int] reads under the interpreter's digit limit, followed on the
    same line by a non-empty suffix that does not start with a digit,
    resolves to the tuple [(a, b, c, suffix)] of length 4. *)
Theorem C3_suffix_single_line L a b c s :
  0 <= a -> 0 <= b -> 0 <= c ->
  within_limit L (str_ a) = true -> within_limit L (str_ b) = true ->
  within_limit L (str_ c) = true ->
  bool_str s = true -> starts_with isdecimal s = false ->
  has_LF s = false ->
  _version.version_info L
    (str_ a +:+ "." +:+ str_ b +:+ "." +:+ str_ c +:+ s)
  = Some [PyInt a; PyInt b; PyInt c; PyStr s].
Proof.
  intros Ha Hb Hc La Lb Lc Hs Hd Hl.
  pose proof (version_info_numbers L 0 0 0 a b c s Ha Hb Hc La Lb Lc Hd) as H.
  cbn [zeros] in H. rewrite !append_nil_l, first_line_id in H by done.
  rewrite H. unfold tuple_of. now rewrite Hs.
Qed.

Lemma C3_suffix_single_line_witness :
  _version.version_info default_max_str_digits "1.4.2rc1"
    = Some [PyInt 1; PyInt 4; PyInt 2; PyStr "rc1"] /\
  _version.version_info default_max_str_digits "10.20.30-beta+build5"
    = Some [PyInt 10; PyInt 20; PyInt 30; PyStr "-beta+build5"].
Proof.
  split.
  - apply (C3_suffix_single_line default_max_str_digits 1 4 2 "rc1");
      (lia || reflexivity).
  - apply (C3_suffix_single_line default_max_str_digits
             10 20 30 "-beta+build5");
      (lia || reflexivity).
Defined.

(** C3, as the specification has it, fails on a single-line text whose
    minor number has 4301 digits, in an interpreter with the default
    limit. *)
Lemma C3_number_over_digit_limit :
  0 <= 10 ^ 4300 /\
  (4300 < String.length (str_ (10 ^ 4300)))%nat /\
  bool_str "rc1" = true /\ starts_with isdecimal "rc1" = false /\
  has_LF "rc1" = false /\
  _version.version_info default_max_str_digits
    (str_ 1 +:+ "." +:+ str_ (10 ^ 4300) +:+ "." +:+ str_ 2 +:+ "rc1")
  = None.
Proof.
  split; [apply Z.pow_nonneg; lia|]. split; [exact length_str_big|].
  do 3 (split; [reflexivity|]).
  destruct dot_separator as [Hd Hd'].
  refine (version_info_over_limit default_max_str_digits
            (str_ 1) "." (str_ (10 ^ 4300)) "." (str_ 2) "rc1"
            _ Hd Hd' _ Hd Hd' _ eq_refl _).
  - reflexivity.
  - apply numeral_str, Z.pow_nonneg. lia.
  - reflexivity.
  - right; left. apply over_default_limit. exact length_str_big.
Qed.

(** C10, as the code has it: numbers written with leading zeros, each
    numeral within the interpreter's digit limit, resolve to their values,
    followed by the suffix on the same line when there is one. *)
Theorem C10_leading_zeros L i j k a b c s :
  0 <= a -> 0 <= b -> 0 <= c ->
  within_limit L (zeros i +:+ str_ a) = true ->
  within_limit L (zeros j +:+ str_ b) = true ->
  within_limit L (zeros k +:+ str_ c) = true ->
  starts_with isdecimal s = false -> has_LF s = false ->
  _version.version_info L
    ((zeros i +:+ str_ a) +:+ "." +:+ (zeros j +:+ str_ b) +:+ "." +:+
     (zeros k +:+ str_ c) +:+ s)
  = Some ([PyInt a; PyInt b; PyInt c]
          ++ (if bool_str s then [PyStr s] else [])).
Proof.
  intros Ha Hb Hc La Lb Lc Hd Hl.
  pose proof (version_info_numbers L i j k a b c s Ha Hb Hc La Lb Lc Hd) as H.
  now rewrite first_line_id in H.
Qed.

Lemma C10_leading_zeros_witness :
  (0 <= 7 /\ 0 <= 8 /\ 0 <= 9) /\
  _version.version_info default_max_str_digits "007.08.09"
    = Some [PyInt 7; PyInt 8; PyInt 9] /\
  _version.version_info default_max_str_digits "007.08.09rc1"
    = Some [PyInt 7; PyInt 8; PyInt 9; PyStr "rc1"].
Proof.
  split; [lia|]. split.
  - apply (C10_leading_zeros default_max_str_digits 2 1 1 7 8 9 "");
      (lia || reflexivity).
  - apply (C10_leading_zeros default_max_str_digits 2 1 1 7 8 9 "rc1");
      (lia || reflexivity).
Defined.

(** C10, as the specification has it, fails when the leading zeros bring a
    numeral to 4301 digits, in an interpreter with the default limit. *)
Lemma C10_zeros_over_digit_limit :
  String.length (zeros 4300 +:+ str_ 7) = 4301%nat /\
  _version.version_info default_max_str_digits
    ((zeros 4300 +:+ str_ 7) +:+ "." +:+ (zeros 1 +:+ str_ 8) +:+ "." +:+
     (zeros 1 +:+ str_ 9))
  = None.
Proof.
  assert (String.length (zeros 4300 +:+ str_ 7) = 4301%nat) as Hlen.
  { rewrite length_append, length_zeros. reflexivity. }
  split; [exact Hlen|].
  destruct dot_separator as [Hd Hd'].
  refine (eq_trans _ (version_info_over_limit default_max_str_digits
           (zeros 4300 +:+ str_ 7) "." (zeros 1 +:+ str_ 8) "."
           (zeros 1 +:+ str_ 9) ""
           _ Hd Hd' _ Hd Hd' _ eq_refl _)).
  - rewrite (append_nil_r (zeros 1 +:+ str_ 9)). reflexivity.
  - apply numeral_zeros. reflexivity.
  - reflexivity.
  - reflexivity.
  - left. apply over_default_limit. rewrite Hlen.
    unfold default_max_str_digits. apply Nat.lt_succ_diag_r.
Qed.
End Resolution.

(** ** Shape of the version tuple *)

Section Shape.
Implicit Types (v : string) (info : list object) (m : groups) (L : nat).

(** C7: when resolution succeeds the tuple is the three integers read from
    the groups major, minor and patch, followed by the group rest exactly
    when that group is not empty; it has 3 or 4 elements. *)
Theorem C7_version_info_shape L v info :
  _version.version_info L v = Some info ->
  exists m major minor patch rest a b c,
    match_ _version.pattern v = Some m /\
    m !! "major" = Some major /\ m !! "minor" = Some minor /\
    m !! "patch" = Some patch /\ m !! "rest" = Some rest /\
    int_ L major = Some a /\ int_ L minor = Some b /\
    int_ L patch = Some c /\
    info = [PyInt a; PyInt b; PyInt c]
           ++ (if bool_str rest then [PyStr rest] else []) /\
    (length info = 3%nat \/ length info = 4%nat) /\
    (length info = 4%nat <-> rest <> "").
Proof.
  intros (ma & mi & pa & rest & a & b & c & Hm & Ha & Hb & Hc & _ & _ & ->)
         %version_info_resolved.
  destruct (groups_of_lookup ma mi pa rest) as (? & ? & ? & ?).
  exists (groups_of ma mi pa rest), ma, mi, pa, rest, a, b, c.
  repeat split; try done; rewrite ?tuple_of_length;
    destruct rest; simpl; auto; done.
Qed.

Lemma C7_version_info_shape_witness :
  _version.version_info default_max_str_digits "1.4.2rc1"
    = Some [PyInt 1; PyInt 4; PyInt 2; PyStr "rc1"] /\
  exists m rest,
    match_ _version.pattern "1.4.2rc1" = Some m /\
    m !! "rest" = Some rest /\ rest <> "".
Proof.
  split; [reflexivity|].
  destruct (C7_version_info_shape default_max_str_digits "1.4.2rc1"
              [PyInt 1; PyInt 4; PyInt 2; PyStr "rc1"] eq_refl)
    as (m & _ & _ & _ & rest & _ & _ & _ & Hm & _ & _ & _ & Hr & _ & _ & _
        & _ & _ & Hlen).
  exists m, rest. repeat split; [exact Hm|exact Hr|].
  apply Hlen. reflexivity.
Defined.

(** C8: a fourth element is a string that does not begin with a digit:
    the patch group has taken every digit of the run. *)
Theorem C8_suffix_not_digit L v info :
  _version.version_info L v = Some info -> length info = 4%nat ->
  exists c s,
    info !! 3%nat = Some (PyStr (String c s)) /\ isdecimal c = false.
Proof.
  intros (ma & mi & pa & rest & a & b & c & _ & _ & _ & _ & Hd & _ & ->)
         %version_info_resolved Hlen.
  rewrite tuple_of_length in Hlen.
  destruct rest as [|d rest]; [done|]. by exists d, rest.
Qed.

Lemma C8_suffix_not_digit_witness :
  _version.version_info default_max_str_digits "1.2.34x"
    = Some [PyInt 1; PyInt 2; PyInt 34; PyStr "x"] /\
  exists c s,
    [PyInt 1; PyInt 2; PyInt 34; PyStr "x"] !! 3%nat
      = Some (PyStr (String c s)) /\ isdecimal c = false.
Proof.
  split; [reflexivity|].
  apply (C8_suffix_not_digit default_max_str_digits "1.2.34x"); reflexivity.
Defined.

(** C1: the separators of the pattern are the unescaped [.], so a text
    that does not begin with three numbers separated by literal dots can
    resolve all the same: [1x2x3] does, and so does [12345], whose
    second and fourth digits are taken as the separators.  The text
    [v1.2.3] does not resolve.  This is so whatever the digit limit [L] of
    the interpreter. *)
Theorem C1_separator_any_character L :
  match_ dotted_prefix "1x2x3" = None /\
  _version.version_info L "1x2x3" = Some [PyInt 1; PyInt 2; PyInt 3] /\
  _version.loaded.version_info <$> _version.load L ("1x2x3" +:+ String LF "")
    = Some [PyInt 1; PyInt 2; PyInt 3] /\
  match_ dotted_prefix "12345" = None /\
  _version.version_info L "12345" = Some [PyInt 1; PyInt 3; PyInt 5] /\
  match_ dotted_prefix "v1.2.3" = None /\
  _version.version_info L "v1.2.3" = None /\
  _version.load L ("v1.2.3" +:+ String LF "") = None.
Proof. repeat split; reflexivity. Qed.
End Shape.

(** ** The module and the setup script *)

Section Loading.
Implicit Types (f readme : string) (environ : gmap string string)
               (find_packages : list string) (L : nat).

(** C4: whatever the VERSION file holds, a loaded module binds the
    protocol version to the pair (5, 3) and to the text 5.3. *)
Theorem C4_protocol_version_constant L f m :
  _version.load L f = Some m ->
  _version.loaded.kernel_protocol_version_info m = (5, 3) /\
  _version.loaded.kernel_protocol_version m = "5.3" /\
  _version.kernel_protocol_version_info = (5, 3) /\
  _version.kernel_protocol_version = "5.3".
Proof.
  unfold _version.load. intros H.
  destruct (_version.version_info _); [|done].
  injection H as <-. repeat split; reflexivity.
Qed.

Lemma C4_protocol_version_constant_witness :
  is_Some (_version.load default_max_str_digits "2.0.0") /\
  forall m, _version.load default_max_str_digits "1.4.2rc1" = Some m ->
            _version.loaded.kernel_protocol_version m = "5.3".
Proof.
  split; [by eexists|]. intros m Hm.
  apply (C4_protocol_version_constant default_max_str_digits
           "1.4.2rc1" m Hm).
Defined.

(** C6: the version text, in the module and in the call to [setup], is
    the text of the VERSION file without the white space at its two
    ends. *)
Theorem C6_version_is_stripped_text f readme environ find_packages :
  exists l r,
    f = l +:+ _version.__version__ f +:+ r /\
    all_chars isspace l = true /\ all_chars isspace r = true /\
    starts_with isspace (_version.__version__ f) = false /\
    ends_with isspace (_version.__version__ f) = false /\
    setuptools.version (setup_py.main readme f environ find_packages)
      = _version.__version__ f.
Proof.
  destruct (strip_split f) as (l & r & H1 & H2 & H3 & H4 & H5).
  by exists l, r.
Qed.

(** C5: with CONDA_BUILD set to a non-empty text the call to [setup]
    gets no dependency; with CONDA_BUILD unset it gets the three. *)
Theorem C5_conda_build_dependencies readme f environ find_packages :
  (forall value,
     environ !! "CONDA_BUILD" = Some value -> value <> "" ->
     setuptools.install_requires
       (setup_py.main readme f environ find_packages) = []) /\
  (environ !! "CONDA_BUILD" = None ->
     setuptools.install_requires
       (setup_py.main readme f environ find_packages)
     = ["matplotlib"; "numpy"; "pyserial"]).
Proof.
  simpl. unfold setup_py.install_requires. split.
  - intros value -> Hv. now destruct value.
  - now intros ->.
Qed.

Lemma C5_conda_build_dependencies_witness :
  setuptools.install_requires
    (setup_py.main "" "2.0.0" (<["CONDA_BUILD" := "1"]> ∅) []) = [] /\
  setuptools.install_requires
    (setup_py.main "" "2.0.0" ∅ [])
  = ["matplotlib"; "numpy"; "pyserial"].
Proof.
  split.
  - apply (proj1 (C5_conda_build_dependencies
                    "" "2.0.0" (<["CONDA_BUILD" := "1"]> ∅) []) "1");
      [reflexivity|discriminate].
  - apply (proj2 (C5_conda_build_dependencies "" "2.0.0" ∅ []));
      reflexivity.
Defined.

(** C9: CONDA_BUILD set to the empty text leaves the three
    dependencies. *)
Theorem C9_empty_conda_build readme f environ find_packages :
  environ !! "CONDA_BUILD" = Some "" ->
  setuptools.install_requires
    (setup_py.main readme f environ find_packages)
  = ["matplotlib"; "numpy"; "pyserial"].
Proof.
  simpl. unfold setup_py.install_requires. now intros ->.
Qed.

Lemma C9_empty_conda_build_witness :
  setuptools.install_requires
    (setup_py.main "" "2.0.0" (<["CONDA_BUILD" := ""]> ∅) [])
  = ["matplotlib"; "numpy"; "pyserial"].
Proof.
  apply (C9_empty_conda_build "" "2.0.0" (<["CONDA_BUILD" := ""]> ∅) []).
  reflexivity.
Defined.
End Loading.


(** ** More on strings and digits *)

Section MoreStrings.
Implicit Types (s t u l r : string) (c : ascii) (p : ascii -> bool)
               (n acc : Z) (L : nat) (d : Decimal.uint).

Lemma append_assoc s t u : (s +:+ t) +:+ u = s +:+ t +:+ u.
Proof.
  induction s as [|c s IH]; [done|]. now rewrite !append_cons, IH.
Qed.

Lemma all_chars_append p s t :
  all_chars p (s +:+ t) = all_chars p s && all_chars p t.
Proof.
  induction s as [|c s IH]; [done|].
  rewrite append_cons. simpl. now rewrite IH, andb_assoc.
Qed.

Lemma ends_with_append p s t :
  bool_str t = true -> ends_with p (s +:+ t) = ends_with p t.
Proof.
  intros Ht. induction s as [|c s IH]; [done|].
  rewrite append_cons. cbn [ends_with]. rewrite IH.
  destruct (s +:+ t) eqn:E; [|done].
  destruct s; [|done]. rewrite append_nil_l in E. now subst t.
Qed.

Lemma substring_shorter (n : nat) s u :
  (n <= String.length s)%nat ->
  String.substring 0 n (s +:+ u) = String.substring 0 n s.
Proof.
  revert n. induction s as [|c s IH]; intros [|n] Hn; simpl in Hn.
  - now destruct u.
  - lia.
  - done.
  - rewrite append_cons. simpl. rewrite IH by lia. done.
Qed.

(** What a group consumes does not depend on the text behind the match. *)
Lemma consumed_suffix s t u : consumed (s +:+ u) (t +:+ u) = consumed s t.
Proof.
  unfold consumed. rewrite !length_append.
  replace (String.length s + String.length u
           - (String.length t + String.length u))%nat
    with (String.length s - String.length t)%nat by lia.
  apply substring_shorter. lia.
Qed.

Lemma isdecimal_ord c : isdecimal c = true -> 48 <= ord c <= 57.
Proof. unfold isdecimal. intros [?%Z.leb_le ?%Z.leb_le]%andb_prop. lia. Qed.

Lemma isdecimal_not_space c : isdecimal c = true -> isspace c = false.
Proof.
  intros H%isdecimal_ord. unfold isspace.
  repeat match goal with
  | |- context [?a <=? ?b] => destruct (Z.leb_spec a b)
  | |- context [?a =? ?b] => destruct (Z.eqb_spec a b)
  end; simpl; (done || lia).
Qed.

Lemma int_digits_nonneg acc s n :
  0 <= acc -> int_digits acc s = Some n -> 0 <= n.
Proof.
  revert acc. induction s as [|c s IH]; simpl; intros acc Hacc.
  - now intros [= <-].
  - destruct (isdecimal c) eqn:Hc; [|done].
    apply IH. apply isdecimal_ord in Hc. unfold decimal. lia.
Qed.

Lemma int_nonneg L s n : int_ L s = Some n -> 0 <= n.
Proof.
  intros (_ & _ & H)%int_Some. now apply (int_digits_nonneg 0 s).
Qed.

(** A run of digits is the text of a decimal numeral, and the text of its
    value, which has no leading zero, is not longer. *)
Lemma digit_uint c d :
  isdecimal c = true ->
  exists d', String c (NilEmpty.string_of_uint d) = NilEmpty.string_of_uint d'.
Proof.
  destruct c as [[] [] [] [] [] [] [] []]; intros H;
    try (vm_compute in H; discriminate H);
    first [ by exists (Decimal.D0 d) | by exists (Decimal.D1 d)
          | by exists (Decimal.D2 d) | by exists (Decimal.D3 d)
          | by exists (Decimal.D4 d) | by exists (Decimal.D5 d)
          | by exists (Decimal.D6 d) | by exists (Decimal.D7 d)
          | by exists (Decimal.D8 d) | by exists (Decimal.D9 d) ].
Qed.

Lemma digits_uint s :
  all_chars isdecimal s = true -> exists d, s = NilEmpty.string_of_uint d.
Proof.
  induction s as [|c s IH]; simpl.
  - by exists Decimal.Nil.
  - intros [Hc [d ->]%IH]%andb_prop.
    destruct (digit_uint c d Hc) as [d' ->]. by exists d'.
Qed.

Lemma length_string_of_uint d :
  String.length (NilEmpty.string_of_uint d) = Decimal.nb_digits d.
Proof. induction d; simpl; congruence. Qed.

Lemma str_length_le s n :
  bool_str s = true -> int_digits 0 s = Some n ->
  (String.length (str_ n) <= String.length s)%nat.
Proof.
  intros Hs Hn.
  destruct (digits_uint s (int_digits_all _ _ _ Hn)) as [d ->].
  rewrite int_digits_of_uint in Hn. injection Hn as <-.
  rewrite str_of_N, DecimalN.Unsigned.to_of, !length_string_of_uint.
  apply DecimalFacts.nb_digits_unorm. now destruct d.
Qed.

(** The text of a number [int] has read is itself within the limit. *)
Lemma str_within L s n :
  int_ L s = Some n -> within_limit L (str_ n) = true.
Proof.
  intros (Hs & HL & Hn)%int_Some.
  apply (within_limit_shorter L _ s); [|done].
  apply str_length_le; [|done]. unfold numeral in Hs.
  now apply andb_prop in Hs as [-> _].
Qed.

Lemma numeral_no_space s :
  numeral s = true ->
  starts_with isspace s = false /\ ends_with isspace s = false.
Proof.
  unfold numeral. destruct s as [|c s]; [done|]. cbn [bool_str andb].
  revert c. induction s as [|c' s IH]; intros c; simpl.
  - rewrite andb_true_r. intros H%isdecimal_not_space. done.
  - intros [Hc Hs]%andb_prop. split; [now apply isdecimal_not_space|].
    now apply (IH c').
Qed.

Lemma numeral_length s : numeral s = true -> (1 <= String.length s)%nat.
Proof. destruct s; [done|]. simpl. lia. Qed.

Lemma numeral_starts s : numeral s = true -> starts_with isdecimal s = true.
Proof.
  unfold numeral. destruct s; [done|]. simpl. now intros [? _]%andb_prop.
Qed.

(** White space around a text does not change what [strip] returns. *)
Lemma strip_surround l s r :
  all_chars isspace l = true -> all_chars isspace r = true ->
  strip (l +:+ s +:+ r) = strip s.
Proof.
  intros Hl Hr.
  destruct (strip_split s) as (l' & r' & Hs & Hl' & Hr' & Hb & He).
  rewrite Hs at 1.
  rewrite !append_assoc, <- (append_assoc l l').
  apply strip_unique; rewrite ?all_chars_append, ?Hl, ?Hl', ?Hr, ?Hr'; done.
Qed.

Lemma strip_blank s : all_chars isspace s = true -> strip s = "".
Proof.
  intros Hs.
  pose proof (strip_unique s "" "" Hs eq_refl eq_refl eq_refl) as H.
  now rewrite append_nil_l, append_nil_r in H.
Qed.
End MoreStrings.

(** ** More on the matcher *)

Section MoreMatcher.
Context {A : Type}.
Implicit Types (s t u p : string) (c : ascii) (cl : cclass)
               (k : string -> option A).

(** A run the class accepts, followed by a text on which the continuation
    succeeds, is matched: with this split or with a longer run. *)
Lemma star_complete cl p t k :
  all_chars (accepts cl) p = true -> is_Some (k t) ->
  is_Some (star cl (p +:+ t) k).
Proof.
  intros Hp Hk. induction p as [|c p IH].
  - rewrite append_nil_l. destruct t as [|c t]; simpl; [done|].
    destruct (accepts cl c); [|done]. now destruct (star cl t k).
  - rewrite append_cons. simpl in *. apply andb_prop in Hp as [-> Hp].
    destruct (IH Hp) as [r ->]. by eexists.
Qed.

Lemma plus_complete cl p t k :
  bool_str p = true -> all_chars (accepts cl) p = true -> is_Some (k t) ->
  is_Some (plus cl (p +:+ t) k).
Proof.
  destruct p as [|c p]; [done|]. intros _ Hp Hk.
  rewrite append_cons. simpl in *. apply andb_prop in Hp as [-> Hp].
  now apply star_complete.
Qed.

(** A text the class does not accept the start of acts as the end of the
    input. *)
Lemma star_line cl s u k k' :
  starts_with (accepts cl) u = false ->
  (forall s', k' (s' +:+ u) = k s') ->
  star cl (s +:+ u) k' = star cl s k.
Proof.
  intros Hu Hk. induction s as [|c s IH].
  - rewrite append_nil_l, star_stop by done. apply (Hk "").
  - rewrite append_cons. simpl. rewrite IH, <- append_cons.
    now rewrite (Hk (String c s)).
Qed.

Lemma plus_line cl s u k k' :
  starts_with (accepts cl) u = false ->
  (forall s', k' (s' +:+ u) = k s') ->
  plus cl (s +:+ u) k' = plus cl s k.
Proof.
  intros Hu Hk. destruct s as [|c s].
  - rewrite append_nil_l. destruct u as [|c u]; simpl in *; [done|].
    now rewrite Hu.
  - rewrite append_cons. simpl. now rewrite (star_line cl s u k k').
Qed.

Lemma chr_line cl s u k k' :
  starts_with (accepts cl) u = false ->
  (forall s', k' (s' +:+ u) = k s') ->
  chr cl (s +:+ u) k' = chr cl s k.
Proof.
  intros Hu Hk. destruct s as [|c s].
  - rewrite append_nil_l. destruct u as [|c u]; simpl in *; [done|].
    now rewrite Hu.
  - rewrite append_cons. simpl. now rewrite Hk.
Qed.
End MoreMatcher.

Section MorePattern.
Implicit Types (v s t a b c r : string) (x y : ascii) (m : groups)
               (info : list object) (L : nat).

(** Any text of the shape numeral, character, numeral, character, numeral
    is matched; how the matcher splits it is another matter. *)
Lemma match_complete a x b y c t :
  numeral a = true -> accepts Dot x = true ->
  numeral b = true -> accepts Dot y = true ->
  numeral c = true ->
  is_Some (match_ _version.pattern
             (a +:+ String x (b +:+ String y (c +:+ t)))).
Proof.
  unfold numeral.
  intros [Ha Hda]%andb_prop Hx [Hb Hdb]%andb_prop Hy Hc.
  rewrite match_unfold.
  apply plus_complete; [done..|]. cbn [chr]. rewrite Hx.
  apply plus_complete; [done..|]. cbn [chr]. rewrite Hy.
  rewrite patch_rest.
  destruct c as [|d c]; [done|]. rewrite append_cons. simpl in *.
  apply andb_prop in Hc as [-> _]. by eexists.
Qed.

(** The line feed ends the match. *)
Lemma match_line v t :
  match_ _version.pattern (v +:+ String LF t) = match_ _version.pattern v.
Proof.
  rewrite !match_unfold.
  apply plus_line; [done|]; intros s1.
  apply chr_line; [done|]; intros s2.
  apply plus_line; [done|]; intros s3.
  apply chr_line; [done|]; intros s4.
  apply plus_line; [done|]; intros s5.
  apply star_line; [done|]; intros s6.
  now rewrite !consumed_suffix.
Qed.

(** What a resolved tuple is made of. *)
Lemma resolved_tuple L v info :
  _version.version_info L v = Some info ->
  exists na nb nc r,
    info = tuple_of na nb nc r /\ 0 <= na /\ 0 <= nb /\ 0 <= nc /\
    within_limit L (str_ na) = true /\ within_limit L (str_ nb) = true /\
    within_limit L (str_ nc) = true /\
    starts_with isdecimal r = false /\ has_LF r = false.
Proof.
  intros (a & b & c & r & na & nb & nc & _ & Ha & Hb & Hc & Hd & Hl & ->)
         %version_info_resolved.
  exists na, nb, nc, r. repeat split; eauto using int_nonneg, str_within.
Qed.

(** The groups of a match, looked up by the name of a numeric part. *)
Lemma groups_of_part a b c r part s :
  In part ["major"; "minor"; "patch"] ->
  groups_of a b c r !! part = Some s -> s = a \/ s = b \/ s = c.
Proof.
  destruct (groups_of_lookup a b c r) as (Ha & Hb & Hc & _).
  intros Hp H. simpl in Hp.
  destruct Hp as [<-|[<-|[<-|Hp]]]; [..|done];
    rewrite ?Ha, ?Hb, ?Hc in H; injection H as <-; auto.
Qed.
End MorePattern.

(** ** Further properties of the version module *)

Section VersionProperties.
Implicit Types (v f s t l r : string) (x y : ascii) (a b c n : Z)
               (info : list object) (L : nat).

Lemma starts_with_append (p : ascii -> bool) s t :
  bool_str s = true -> starts_with p (s +:+ t) = starts_with p s.
Proof. destruct s; done. Qed.

Lemma bool_str_append s t : bool_str s = true -> bool_str (s +:+ t) = true.
Proof. destruct s; done. Qed.

Lemma accepts_dot x : accepts Dot x = true <-> x <> LF.
Proof.
  simpl. rewrite negb_true_iff. apply Ascii.eqb_neq.
Qed.

(** X1: the module fails to load in two cases only: the pattern does not
    match the stripped text (the assertion), or it matches and one of the
    groups major, minor, patch has more digits than the interpreter's
    limit lets [int] read. *)
Theorem X1_load_failures L f :
  _version.load L f = None <->
  _version.match_ (_version.__version__ f) = None \/
  exists m part s,
    _version.match_ (_version.__version__ f) = Some m /\
    In part ["major"; "minor"; "patch"] /\
    m !! part = Some s /\ within_limit L s = false.
Proof.
  unfold _version.load, _version.match_.
  set (v := _version.__version__ f).
  destruct (match_ _version.pattern v) as [m|] eqn:Hm.
  - destruct (version_info_of_match L v m Hm)
      as (sa & sb & sc & r & -> & Ha & Hb & Hc & _ & _ & ->).
    destruct (groups_of_lookup sa sb sc r) as (Ga & Gb & Gc & _).
    split.
    + intros H. right.
      destruct (within_limit L sa) eqn:La;
        [|exists (groups_of sa sb sc r), "major", sa; simpl; auto].
      destruct (within_limit L sb) eqn:Lb;
        [|exists (groups_of sa sb sc r), "minor", sb; simpl; auto].
      destruct (within_limit L sc) eqn:Lc;
        [|exists (groups_of sa sb sc r), "patch", sc; simpl; auto 6].
      destruct (numeral_int L sa Ha La) as [na Hna].
      destruct (numeral_int L sb Hb Lb) as [nb Hnb].
      destruct (numeral_int L sc Hc Lc) as [nc Hnc].
      now rewrite Hna, Hnb, Hnc in H.
    + intros [H|(m & part & s & [= <-] & Hp & Hs & HL)]; [done|].
      apply int_over_limit in HL.
      destruct (groups_of_part _ _ _ _ _ _ Hp Hs) as [-> | [-> | ->]];
        rewrite HL; simpl; [done| |].
      * now destruct (int_ L sa).
      * now destruct (int_ L sa), (int_ L sb).
  - unfold _version.version_info, _version.match_. fold v. rewrite Hm.
    split; [now left|done].
Qed.

(** X2: the assertion passes exactly when the text begins with a numeral,
    one character, a numeral, one character and a numeral, the two
    characters being anything but the line feed. *)
Theorem X2_assertion_iff_shape v :
  is_Some (_version.match_ v) <->
  exists sa x sb y sc t,
    v = sa +:+ String x (sb +:+ String y (sc +:+ t)) /\
    numeral sa = true /\ x <> LF /\
    numeral sb = true /\ y <> LF /\
    numeral sc = true.
Proof.
  unfold _version.match_. split.
  - intros [m (sa & x & sb & y & sc & t & Hv & Ha & Hx & Hb & Hy & Hc & _)
              %match_sound].
    exists sa, x, sb, y, sc, t. rewrite <- !accepts_dot. done.
  - intros (sa & x & sb & y & sc & t & -> & Ha & Hx & Hb & Hy & Hc).
    apply match_complete; try done; now apply accepts_dot.
Qed.

(** X3: what follows the first line feed of the version text plays no part
    in the version tuple. *)
Theorem X3_only_first_line L v t :
  _version.version_info L (v +:+ String LF t) = _version.version_info L v.
Proof.
  unfold _version.version_info, _version.match_. now rewrite match_line.
Qed.

(** X4: the integers of a version tuple are never negative. *)
Theorem X4_components_nonnegative L v info n :
  _version.version_info L v = Some info -> In (PyInt n) info -> 0 <= n.
Proof.
  intros (na & nb & nc & r & -> & Ha & Hb & Hc & _)%resolved_tuple.
  unfold tuple_of. destruct (bool_str r); simpl;
    intros H; repeat destruct H as [H|H]; try done; congruence.
Qed.

Lemma X4_components_nonnegative_witness :
  _version.version_info default_max_str_digits "1.4.2rc1"
    = Some [PyInt 1; PyInt 4; PyInt 2; PyStr "rc1"] /\ 0 <= 4.
Proof.
  split; [reflexivity|].
  apply (X4_components_nonnegative default_max_str_digits "1.4.2rc1"
           [PyInt 1; PyInt 4; PyInt 2; PyStr "rc1"] 4 eq_refl).
  simpl. auto.
Defined.

(** X5: a string in a version tuple is not empty and holds no line
    feed. *)
Theorem X5_suffix_within_line L v info s :
  _version.version_info L v = Some info -> In (PyStr s) info ->
  s <> "" /\ has_LF s = false.
Proof.
  intros (na & nb & nc & r & -> & _ & _ & _ & _ & _ & _ & _ & Hl)
         %resolved_tuple.
  unfold tuple_of. destruct r as [|d r]; simpl;
    intros H; repeat destruct H as [H|H]; try done.
  injection H as <-. done.
Qed.

Lemma X5_suffix_within_line_witness :
  _version.version_info default_max_str_digits "1.4.2rc1"
    = Some [PyInt 1; PyInt 4; PyInt 2; PyStr "rc1"] /\
  "rc1" <> "" /\ has_LF "rc1" = false.
Proof.
  split; [reflexivity|].
  apply (X5_suffix_within_line default_max_str_digits "1.4.2rc1"
           [PyInt 1; PyInt 4; PyInt 2; PyStr "rc1"] "rc1" eq_refl).
  simpl. auto.
Defined.

(** X8: a text that resolves begins with a digit and has at least five
    characters. *)
Theorem X8_resolved_text_bounds L v info :
  _version.version_info L v = Some info ->
  starts_with isdecimal v = true /\ (5 <= String.length v)%nat.
Proof.
  intros (ga & gb & gc & gr & na & nb & nc & Hm & _)%version_info_resolved.
  apply match_sound in Hm
    as (sa & x & sb & y & sc & t & -> & Ha & _ & Hb & _ & Hc & _).
  split.
  - rewrite starts_with_append; [now apply numeral_starts|].
    unfold numeral in Ha. now apply andb_prop in Ha as [-> _].
  - apply numeral_length in Ha, Hb, Hc.
    rewrite length_append. cbn [String.length].
    rewrite length_append. cbn [String.length].
    rewrite length_append. lia.
Qed.

Lemma X8_resolved_text_bounds_witness :
  _version.version_info default_max_str_digits "2.0.0"
    = Some [PyInt 2; PyInt 0; PyInt 0] /\
  (5 <= String.length "2.0.0")%nat.
Proof.
  split; [reflexivity|].
  apply (X8_resolved_text_bounds default_max_str_digits "2.0.0"
           [PyInt 2; PyInt 0; PyInt 0] eq_refl).
Defined.
End VersionProperties.

(** ** From the files to the module and the call to setup *)

Section FileProperties.
Implicit Types (v f s t l r readme : string) (x y : ascii) (a b c : Z)
               (info : list object) (environ : gmap string string)
               (find_packages : list string) (L : nat).

Lemma dotted_no_space a b c :
  0 <= a -> 0 <= b -> 0 <= c ->
  let v := str_ a +:+ "." +:+ str_ b +:+ "." +:+ str_ c in
  starts_with isspace v = false /\ ends_with isspace v = false.
Proof.
  intros Ha%numeral_str Hb%numeral_str Hc%numeral_str v. subst v.
  pose proof (numeral_no_space _ Ha) as [Hsa _].
  pose proof (numeral_no_space _ Hc) as [_ Hec].
  unfold numeral in Ha, Hb, Hc.
  apply andb_prop in Ha as [Ha _], Hb as [Hb _], Hc as [Hc _].
  split.
  - now rewrite starts_with_append.
  - rewrite ends_with_append by done.
    rewrite (ends_with_append _ "." ) by now apply bool_str_append.
    rewrite ends_with_append by done.
    now rewrite (ends_with_append _ ".").
Qed.

(** X6: white space added before and after the text of the VERSION file
    changes neither the loaded module nor the version given to [setup]. *)
Theorem X6_surrounding_white_space L l f r readme environ find_packages :
  all_chars isspace l = true -> all_chars isspace r = true ->
  _version.load L (l +:+ f +:+ r) = _version.load L f /\
  setuptools.version
    (setup_py.main readme (l +:+ f +:+ r) environ find_packages)
  = setuptools.version (setup_py.main readme f environ find_packages).
Proof.
  intros Hl Hr. unfold _version.load, _version.__version__.
  unfold _version._get_version. simpl. unfold setup_py.version.
  now rewrite strip_surround.
Qed.

Lemma X6_surrounding_white_space_witness :
  _version.load default_max_str_digits (" " +:+ "2.0.0" +:+ String LF "")
  = _version.load default_max_str_digits "2.0.0".
Proof.
  apply (X6_surrounding_white_space default_max_str_digits
           " " "2.0.0" (String LF "") "" ∅ []);
    reflexivity.
Defined.

(** X7: a VERSION file that holds [a.b.c], each number within the digit
    limit, with white space around it, such as a final line feed, loads,
    with [__version__] the bare text and [version_info] the three
    numbers. *)
Theorem X7_load_dotted_file L l r a b c :
  all_chars isspace l = true -> all_chars isspace r = true ->
  0 <= a -> 0 <= b -> 0 <= c ->
  within_limit L (str_ a) = true -> within_limit L (str_ b) = true ->
  within_limit L (str_ c) = true ->
  let v := str_ a +:+ "." +:+ str_ b +:+ "." +:+ str_ c in
  _version.load L (l +:+ v +:+ r)
  = Some (_version.loaded.Make v [PyInt a; PyInt b; PyInt c] (5, 3) "5.3").
Proof.
  intros Hl Hr Ha Hb Hc La Lb Lc v.
  destruct (dotted_no_space a b c Ha Hb Hc) as [Hs He]. fold v in Hs, He.
  unfold _version.load, _version.__version__, _version._get_version.
  rewrite strip_unique by done. subst v.
  pose proof (version_info_numbers L 0 0 0 a b c "" Ha Hb Hc La Lb Lc eq_refl)
    as H.
  cbn [zeros first_line take_while] in H.
  rewrite !append_nil_l, append_nil_r in H. now rewrite H.
Qed.

Lemma X7_load_dotted_file_witness :
  _version.load default_max_str_digits ("2.1.0" +:+ String LF "")
  = Some (_version.loaded.Make "2.1.0" [PyInt 2; PyInt 1; PyInt 0]
            (5, 3) "5.3").
Proof.
  apply (X7_load_dotted_file default_max_str_digits "" (String LF "") 2 1 0);
    (reflexivity || lia).
Defined.

(** X9: an empty VERSION file, or one of white space only, does not
    load. *)
Theorem X9_blank_file L f :
  all_chars isspace f = true -> _version.load L f = None.
Proof.
  intros Hf. unfold _version.load, _version.__version__.
  unfold _version._get_version. now rewrite strip_blank.
Qed.

Lemma X9_blank_file_witness :
  _version.load default_max_str_digits "" = None /\
  _version.load default_max_str_digits (" " +:+ String LF "") = None.
Proof.
  split.
  - apply (X9_blank_file default_max_str_digits ""). reflexivity.
  - apply (X9_blank_file default_max_str_digits (" " +:+ String LF "")).
    reflexivity.
Defined.

(** X10: only CONDA_BUILD is looked at: setting or removing any other
    variable of the environment leaves the dependencies as they were. *)
Theorem X10_other_variables readme f environ find_packages name value :
  name <> "CONDA_BUILD" ->
  setuptools.install_requires
    (setup_py.main readme f (<[name := value]> environ) find_packages)
  = setuptools.install_requires
      (setup_py.main readme f environ find_packages) /\
  setuptools.install_requires
    (setup_py.main readme f (delete name environ) find_packages)
  = setuptools.install_requires
      (setup_py.main readme f environ find_packages).
Proof.
  intros Hn. simpl. unfold setup_py.install_requires.
  now rewrite lookup_insert_ne, lookup_delete_ne.
Qed.

Lemma X10_other_variables_witness :
  setuptools.install_requires
    (setup_py.main "" "2.0.0"
       (<["PATH" := "/usr/bin"]> (<["CONDA_BUILD" := "1"]> ∅)) [])
  = setuptools.install_requires
      (setup_py.main "" "2.0.0" (<["CONDA_BUILD" := "1"]> ∅) []).
Proof.
  apply (X10_other_variables "" "2.0.0" (<["CONDA_BUILD" := "1"]> ∅) []
           "PATH" "/usr/bin").
  discriminate.
Defined.

(** X11: any two characters that are neither digits nor the line feed
    serve as separators: for numbers within the digit limit the tuple is
    that of the dotted text. *)
Theorem X11_any_separator L a b c x y :
  0 <= a -> 0 <= b -> 0 <= c ->
  within_limit L (str_ a) = true -> within_limit L (str_ b) = true ->
  within_limit L (str_ c) = true ->
  isdecimal x = false -> x <> LF -> isdecimal y = false -> y <> LF ->
  _version.version_info L
    (str_ a +:+ String x (str_ b +:+ String y (str_ c)))
  = Some [PyInt a; PyInt b; PyInt c].
Proof.
  intros Ha Hb Hc La Lb Lc Hx Hx'%accepts_dot Hy Hy'%accepts_dot.
  pose proof (version_info_dotted L (str_ a) x (str_ b) y (str_ c) "" a b c
                (int_str L a Ha La) (int_str L b Hb Lb) (int_str L c Hc Lc)
                Hx Hx' Hy Hy' eq_refl) as H.
  now rewrite append_nil_r in H.
Qed.

Lemma X11_any_separator_witness :
  _version.version_info default_max_str_digits "1-2_3"
  = Some [PyInt 1; PyInt 2; PyInt 3].
Proof.
  apply (X11_any_separator default_max_str_digits 1 2 3 "-" "_");
    (lia || reflexivity || discriminate).
Defined.

(** X12: a resolved tuple [(a, b, c)] or [(a, b, c, rest)] is also the
    tuple of the text [a.b.c] followed by [rest]: writing a tuple out and
    resolving it again gives it back. *)
Theorem X12_canonical_text L v info :
  _version.version_info L v = Some info ->
  exists a b c rest,
    info = tuple_of a b c rest /\
    _version.version_info L
      (str_ a +:+ "." +:+ str_ b +:+ "." +:+ str_ c +:+ rest)
    = Some info.
Proof.
  intros (a & b & c & rest & -> & Ha & Hb & Hc & La & Lb & Lc & Hd & Hl)
         %resolved_tuple.
  exists a, b, c, rest. split; [done|].
  pose proof (version_info_numbers L 0 0 0 a b c rest
                Ha Hb Hc La Lb Lc Hd) as H.
  cbn [zeros] in H. now rewrite !append_nil_l, first_line_id in H.
Qed.

Lemma X12_canonical_text_witness :
  _version.version_info default_max_str_digits "007.08.09rc" =
    Some [PyInt 7; PyInt 8; PyInt 9; PyStr "rc"] /\
  exists a b c rest,
    [PyInt 7; PyInt 8; PyInt 9; PyStr "rc"] = tuple_of a b c rest /\
    _version.version_info default_max_str_digits
      (str_ a +:+ "." +:+ str_ b +:+ "." +:+ str_ c +:+ rest)
    = Some [PyInt 7; PyInt 8; PyInt 9; PyStr "rc"].
Proof.
  split; [reflexivity|].
  apply (X12_canonical_text default_max_str_digits "007.08.09rc").
  reflexivity.
Defined.
End FileProperties.
